(** * parquet2hive: the packaging manifest [setup.py]

    The manifest is one Python module: it imports [setup] from
    [setuptools] and calls it once with eleven keyword arguments, each a
    string literal or a list of string literals.  The embedding keeps the
    module as a program over the effects a Python module could perform
    (reading the environment, reading a file, calling [setup]), so that
    "what is passed to [setup]" is read off a run of the module. *)

From Stdlib Require Import String Ascii List Bool Arith PeanoNat Lia.
Import ListNotations.
Local Open Scope string_scope.
Local Open Scope list_scope.

(** ** Python values and keyword arguments *)

Module Py.

(** The Python values a keyword argument of [setup] may hold. *)
#[warnings="-register-all"]
Inductive value : Type :=
| VNone
| VStr (s : string)
| VList (items : list value).

(** The keyword arguments of a call: keyword/value pairs in the order they
  are written. *)
Definition kwargs : Type := list (string * value).

Fixpoint kwarg (k : string) (kw : kwargs) : option value :=
  match kw with
  | [] => None
  | (k', v) :: rest => if String.eqb k k' then Some v else kwarg k rest
  end.

Definition keywords (kw : kwargs) : list string := map fst kw.

Definition as_str (v : value) : option string :=
  match v with
  | VStr s => Some s
  | _ => None
  end.

Fixpoint all_some {A : Type} (l : list (option A)) : option (list A) :=
  match l with
  | [] => Some []
  | None :: _ => None
  | Some a :: rest =>
      match all_some rest with
      | Some r => Some (a :: r)
      | None => None
      end
  end.

Definition as_strs (v : value) : option (list string) :=
  match v with
  | VList items => all_some (map as_str items)
  | _ => None
  end.

(** A list literal of string literals, as the manifest writes them. *)
Definition strs (l : list string) : value := VList (map VStr l).

Definition is_str (v : value) : bool :=
  match v with
  | VStr _ => true
  | _ => false
  end.

Definition is_str_list (v : value) : bool :=
  match v with
  | VList items => forallb is_str items
  | _ => false
  end.

(** "a string or list-of-strings literal" *)
Definition is_literal_arg (v : value) : bool := is_str v || is_str_list v.

(** What is outside the module: the process environment and the file
    system.  A module may consult either while it is evaluated. *)
Record World : Type := mkWorld {
  environ : string -> option string;
  file_contents : string -> option string
}.

(** A module body as a tree of the effects it performs, with the call of
    [setuptools.setup] as one of them. *)
Inductive prog (A : Type) : Type :=
| Done (a : A)
| Getenv (var : string) (k : option string -> prog A)
| ReadFile (path : string) (k : option string -> prog A)
| Setup (kw : kwargs) (k : prog A).

Arguments Done {A} a.
Arguments Getenv {A} var k.
Arguments ReadFile {A} path k.
Arguments Setup {A} kw k.

(** [setup(...)] as a statement: the call, its result dropped. *)
Definition setup (kw : kwargs) : prog unit := Setup kw (Done tt).

(** One evaluation of a module in a world: the calls of [setup] it made,
    in order, and its result. *)
Fixpoint run {A : Type} (w : World) (m : prog A) : list kwargs * A :=
  match m with
  | Done a => ([], a)
  | Getenv var k => run w (k (environ w var))
  | ReadFile path k => run w (k (file_contents w path))
  | Setup kw k => let '(calls, a) := run w k in (kw :: calls, a)
  end.

Definition setup_calls {A : Type} (w : World) (m : prog A) : list kwargs :=
  fst (run w m).

(** The module reads no environment variable and no file. *)
Fixpoint reads_nothing {A : Type} (m : prog A) : Prop :=
  match m with
  | Done _ => True
  | Getenv _ _ => False
  | ReadFile _ _ => False
  | Setup _ k => reads_nothing k
  end.

End Py.

Import Py.

(** ** The manifest *)

(** The keyword arguments of the call, lines 3 to 13 of [setup.py]. *)
Definition setup_kwargs : kwargs :=
  [ ("name", VStr "parquet2hive");
    ("version", VStr "0.2.16");
    ("author", VStr "Roberto Agostino Vitillo");
    ("author_email", VStr "rvitillo@mozilla.com");
    ("description", VStr "Hive import statement generator for Parquet datasets");
    ("url", VStr "https://github.com/mozilla/parquet2hive");
    ("scripts", strs ["parquet2hive"]);
    ("packages", strs ["parquet2hive_modules"]);
    ("install_requires", strs ["boto3"; "functools32"; "thrift"; "boto>=2.36.0"]);
    ("setup_requires", strs ["pytest-runner"]);
    ("tests_require", strs ["pytest"; "moto"; "wheel[signatures]"; "jsonschema"]) ].

(** The module [setup.py]: [from setuptools import setup] binds the name,
    and the only statement after it is the call. *)
Definition setup_py : prog unit := setup setup_kwargs.

(** The value passed to [setup] under keyword [k] when the module is
    evaluated in world [w]; [None] if the module did not call [setup]
    exactly once or the call has no such keyword. *)
Definition passed (w : World) (k : string) : option value :=
  match setup_calls w setup_py with
  | [kw] => kwarg k kw
  | _ => None
  end.

Definition passed_str (w : World) (k : string) : option string :=
  match passed w k with
  | Some v => as_str v
  | None => None
  end.

Definition passed_strs (w : World) (k : string) : option (list string) :=
  match passed w k with
  | Some v => as_strs v
  | None => None
  end.

(** The keywords holding one string, and those holding a list of strings. *)
Definition string_fields : list string :=
  ["name"; "version"; "author"; "author_email"; "description"; "url"].

Definition list_fields : list string :=
  ["scripts"; "packages"; "install_requires"; "setup_requires"; "tests_require"].

(** ** Requirement strings

    The entries of [install_requires] and [tests_require] are requirement
    strings, which [setuptools] reads by PEP 508 (name, optional extras,
    version specifiers) and whose versions it orders by PEP 440.  That
    reader belongs to [setuptools], not to this repository; the part of it
    the manifest's strings exercise is written out here: no whitespace,
    no environment markers, no URLs, release segments only. *)

Module Requirement.

Definition version : Type := list nat.

Inductive op : Type := Ge | Le | EqEq | Ne | Gt | Lt.

Record t : Type := mk {
  req_name : string;
  req_extras : list string;
  req_specs : list (op * version)
}.

Definition in_range (lo hi : nat) (c : ascii) : bool :=
  let n := nat_of_ascii c in Nat.leb lo n && Nat.leb n hi.

Definition is_digit (c : ascii) : bool := in_range 48 57 c.

Definition is_alpha (c : ascii) : bool := in_range 65 90 c || in_range 97 122 c.

Definition is_name_char (c : ascii) : bool :=
  is_alpha c || is_digit c
  || Ascii.eqb c "-" || Ascii.eqb c "_" || Ascii.eqb c ".".

(** The longest prefix of [s] whose characters satisfy [p], and the rest. *)
Fixpoint span (p : ascii -> bool) (s : string) : string * string :=
  match s with
  | EmptyString => (EmptyString, EmptyString)
  | String c s' =>
      if p c then let '(a, b) := span p s' in (String c a, b)
      else (EmptyString, s)
  end.

Fixpoint split_on (sep : ascii) (s : string) : list string :=
  match s with
  | EmptyString => [EmptyString]
  | String c s' =>
      if Ascii.eqb c sep then EmptyString :: split_on sep s'
      else match split_on sep s' with
           | [] => [String c EmptyString]
           | h :: rest => String c h :: rest
           end
  end.

Fixpoint strip_prefix (p s : string) : option string :=
  match p, s with
  | EmptyString, _ => Some s
  | String a p', String b s' =>
      if Ascii.eqb a b then strip_prefix p' s' else None
  | String _ _, EmptyString => None
  end.

Fixpoint digits_value (acc : nat) (s : string) : option nat :=
  match s with
  | EmptyString => Some acc
  | String c s' =>
      if is_digit c then digits_value (10 * acc + (nat_of_ascii c - 48)) s'
      else None
  end.

Definition parse_nat (s : string) : option nat :=
  match s with
  | EmptyString => None
  | _ => digits_value 0 s
  end.

Definition parse_version (s : string) : option version :=
  all_some (map parse_nat (split_on "." s)).

Definition operators : list (string * op) :=
  [ (">=", Ge); ("<=", Le); ("==", EqEq); ("!=", Ne); (">", Gt); ("<", Lt) ].

Fixpoint parse_spec_with (ops : list (string * op)) (s : string)
  : option (op * version) :=
  match ops with
  | [] => None
  | (sym, o) :: rest =>
      match strip_prefix sym s with
      | Some v =>
          match parse_version v with
          | Some ver => Some (o, ver)
          | None => None
          end
      | None => parse_spec_with rest s
      end
  end.

Definition parse_spec (s : string) : option (op * version) :=
  parse_spec_with operators s.

Definition parse_specs (s : string) : option (list (op * version)) :=
  match s with
  | EmptyString => Some []
  | _ => all_some (map parse_spec (split_on "," s))
  end.

(** [[a,b]rest] gives [([a; b], rest)]; no bracket gives no extras. *)
Definition parse_extras (s : string) : option (list string * string) :=
  match s with
  | String "[" s' =>
      let '(inside, rest) := span (fun c => negb (Ascii.eqb c "]")) s' in
      match rest with
      | String _ rest' => Some (split_on "," inside, rest')
      | EmptyString => None
      end
  | _ => Some ([], s)
  end.

Definition parse (s : string) : option t :=
  let '(name, rest) := span is_name_char s in
  match name with
  | EmptyString => None
  | _ =>
      match parse_extras rest with
      | Some (extras, rest') =>
          match parse_specs rest' with
          | Some specs => Some (mk name extras specs)
          | None => None
          end
      | None => None
      end
  end.

Definition parse_all (l : list string) : option (list t) :=
  all_some (map parse l).

(** A requirement string carries a version constraint. *)
Definition constrained (s : string) : bool :=
  match parse s with
  | Some r => negb (Nat.eqb (List.length (req_specs r)) 0)
  | None => false
  end.

Definition all_zero (v : version) : bool := forallb (Nat.eqb 0) v.

(** PEP 440 order on release segments: segment by segment, the shorter
    version padded with zeros ([2.36] and [2.36.0] compare equal). *)
Fixpoint vcompare (a b : version) : comparison :=
  match a, b with
  | [], _ => if all_zero b then Eq else Datatypes.Lt
  | _ :: _, [] => if all_zero a then Eq else Datatypes.Gt
  | x :: a', y :: b' =>
      match Nat.compare x y with
      | Eq => vcompare a' b'
      | c => c
      end
  end.

Definition satisfies (v : version) (c : op * version) : bool :=
  match fst c, vcompare v (snd c) with
  | Ge, Datatypes.Lt => false
  | Ge, _ => true
  | Le, Datatypes.Gt => false
  | Le, _ => true
  | EqEq, Eq => true
  | EqEq, _ => false
  | Ne, Eq => false
  | Ne, _ => true
  | Gt, Datatypes.Gt => true
  | Gt, _ => false
  | Lt, Datatypes.Lt => true
  | Lt, _ => false
  end.

Definition satisfies_all (v : version) (r : t) : bool :=
  forallb (satisfies v) (req_specs r).

(** The requirements can be met together: one version per package name
    meets every specifier written for that name. *)
Definition satisfiable (reqs : list t) : Prop :=
  exists pick : string -> version,
    Forall (fun r => satisfies_all (pick (req_name r)) r = true) reqs.

Definition lower_bounds_only (r : t) : Prop :=
  Forall (fun c => fst c = Ge) (req_specs r).

(** One more than the largest leading segment among the bounds written. *)
Definition above (reqs : list t) : nat :=
  S (list_max (map (fun c => hd 0 (snd c)) (flat_map req_specs reqs))).

End Requirement.

(** The requirement strings the manifest passes as [install_requires]. *)
Definition install_requires (w : World) : list string :=
  match passed_strs w "install_requires" with
  | Some l => l
  | None => []
  end.

(** Every requirement string the manifest declares, over its three lists:
    [install_requires], [setup_requires] and [tests_require], in the order
    they are written. *)
Definition declared_requirements (w : World) : list string :=
  flat_map (fun k => match passed_strs w k with
                     | Some l => l
                     | None => []
                     end)
           ["install_requires"; "setup_requires"; "tests_require"].

(** A world with an empty environment and no files. *)
Definition empty_world : World := mkWorld (fun _ => None) (fun _ => None).

(** * Properties *)

(** ** Evaluation of modules *)

Section Evaluation.

Context {A : Type}.

(** A module that reads nothing runs the same in every world. *)
Lemma run_world_irrelevant (m : prog A) :
  reads_nothing m -> forall w1 w2, run w1 m = run w2 m.
Proof.
  induction m as [a | var k IH | path k IH | kw k IH]; simpl; intros H w1 w2.
  - reflexivity.
  - contradiction.
  - contradiction.
  - rewrite (IH H w1 w2). reflexivity.
Qed.

Lemma setup_calls_world_irrelevant (m : prog A) :
  reads_nothing m -> forall w1 w2, setup_calls w1 m = setup_calls w2 m.
Proof.
  intros H w1 w2. unfold setup_calls.
  rewrite (run_world_irrelevant m H w1 w2). reflexivity.
Qed.

End Evaluation.

Lemma setup_py_reads_nothing : reads_nothing setup_py.
Proof. exact I. Qed.

Lemma setup_py_calls (w : World) : setup_calls w setup_py = [setup_kwargs].
Proof. reflexivity. Qed.

Lemma passed_kwarg (w : World) (k : string) : passed w k = kwarg k setup_kwargs.
Proof. unfold passed. rewrite setup_py_calls. reflexivity. Qed.

(** A keyword found by [kwarg] is written in the call. *)
Lemma kwarg_In (k : string) (kw : kwargs) (v : value) :
  kwarg k kw = Some v -> In (k, v) kw.
Proof.
  induction kw as [| [k' v'] rest IH]; simpl; intros H.
  - discriminate.
  - destruct (String.eqb k k') eqn:E.
    + apply String.eqb_eq in E. inversion H; subst. left; reflexivity.
    + right. apply IH. exact H.
Qed.

Ltac distinct_strings :=
  repeat (constructor; [simpl; intuition discriminate |]); constructor.

(** No keyword is written twice, so [kwarg] loses nothing. *)
Lemma keywords_distinct : NoDup (keywords setup_kwargs).
Proof. unfold keywords; simpl. distinct_strings. Qed.

Lemma keywords_are_fields :
  keywords setup_kwargs = string_fields ++ list_fields.
Proof. reflexivity. Qed.

Lemma as_strs_strs (l : list string) : as_strs (strs l) = Some l.
Proof.
  unfold as_strs, strs. rewrite map_map. simpl.
  induction l as [| s l IH]; simpl.
  - reflexivity.
  - rewrite IH. reflexivity.
Qed.

Lemma is_str_list_strs (l : list string) : is_str_list (strs l) = true.
Proof.
  unfold is_str_list, strs. rewrite forallb_forall.
  intros v Hv. apply in_map_iff in Hv. destruct Hv as [s [<- _]]. reflexivity.
Qed.

(** ** Versions and requirements *)

Module RequirementFacts.

Import Requirement.

(** Swapping the versions swaps the verdict, padding included. *)
Lemma vcompare_antisym (a b : version) :
  vcompare a b = CompOpp (vcompare b a).
Proof.
  revert b. induction a as [| x a IH]; intros [| y b];
    cbn [vcompare].
  - reflexivity.
  - destruct (all_zero (y :: b)); reflexivity.
  - destruct (all_zero (x :: a)); reflexivity.
  - rewrite (Nat.compare_antisym y x), IH.
    destruct (Nat.compare y x); reflexivity.
Qed.

Lemma vcompare_refl (v : version) : vcompare v v = Eq.
Proof.
  induction v as [| x v IH]; simpl.
  - reflexivity.
  - rewrite Nat.compare_refl. exact IH.
Qed.

(** A version satisfies the lower bound it is itself. *)
Lemma satisfies_ge_refl (v : version) : satisfies v (Ge, v) = true.
Proof. unfold satisfies; simpl. rewrite vcompare_refl. reflexivity. Qed.

(** A one-segment version above the leading segment of [b] is above [b]. *)
Lemma vcompare_above (n : nat) (b : version) :
  hd 0 b < n -> vcompare [n] b = Datatypes.Gt.
Proof.
  destruct b as [| y b]; simpl; intros H.
  - destruct n as [| n]; [lia | reflexivity].
  - destruct (Nat.compare_spec n y); try lia. reflexivity.
Qed.

Lemma satisfies_ge_above (n : nat) (c : op * version) :
  fst c = Ge -> hd 0 (snd c) < n -> satisfies [n] c = true.
Proof.
  destruct c as [o b]; simpl; intros -> H.
  unfold satisfies; simpl fst; simpl snd.
  rewrite (vcompare_above n b H). reflexivity.
Qed.

Lemma above_bounds (reqs : list t) (r : t) (c : op * version) :
  In r reqs -> In c (req_specs r) -> hd 0 (snd c) < above reqs.
Proof.
  intros Hr Hc. unfold above.
  assert (Hin : In (hd 0 (snd c))
                   (map (fun c => hd 0 (snd c)) (flat_map req_specs reqs))).
  { apply (in_map (fun c0 : op * version => hd 0 (snd c0))).
    apply in_flat_map. exists r. split; assumption. }
  set (heads := map (fun c0 : op * version => hd 0 (snd c0))
                    (flat_map req_specs reqs)) in *.
  pose proof (proj1 (list_max_le heads (list_max heads)) (Nat.le_refl _))
    as Hall.
  rewrite Forall_forall in Hall. specialize (Hall _ Hin).
  apply Nat.lt_succ_r. exact Hall.
Qed.

(** Requirements that only write lower bounds never contradict each other:
    a version above every bound meets them all. *)
Lemma lower_bounds_satisfiable (reqs : list t) :
  Forall lower_bounds_only reqs -> satisfiable reqs.
Proof.
  intros Hlow. exists (fun _ => [above reqs]).
  rewrite Forall_forall in *. intros r Hr.
  unfold satisfies_all. rewrite forallb_forall. intros c Hc.
  apply satisfies_ge_above.
  - specialize (Hlow r Hr). unfold lower_bounds_only in Hlow.
    rewrite Forall_forall in Hlow. apply Hlow. exact Hc.
  - apply (above_bounds reqs r c Hr Hc).
Qed.

End RequirementFacts.

(** ** The manifest's declarations *)

(** C1: the [scripts] argument passed to [setup] is the one-element list
    ['parquet2hive']: the distribution declares exactly one executable
    script, and its name is [parquet2hive]. *)
Theorem scripts_is_parquet2hive (w : World) :
  passed w "scripts" = Some (VList [VStr "parquet2hive"])
  /\ passed_strs w "scripts" = Some ["parquet2hive"]
  /\ (forall l, passed_strs w "scripts" = Some l -> List.length l = 1).
Proof.
  split; [reflexivity |]. split; [reflexivity |].
  intros l H. unfold passed_strs in H. rewrite passed_kwarg in H.
  simpl in H. inversion H. reflexivity.
Qed.

(** C2: the [packages] argument passed to [setup] is a list of strings
    that contains 'parquet2hive_modules'. *)
Theorem packages_include_modules (w : World) :
  exists l, passed_strs w "packages" = Some l /\ In "parquet2hive_modules" l.
Proof.
  exists ["parquet2hive_modules"]. split.
  - reflexivity.
  - left. reflexivity.
Qed.

(** C3: the [install_requires] argument passed to [setup] equals
    ['boto3', 'functools32', 'thrift', 'boto>=2.36.0']: exactly these four
    requirements, in this order. *)
Theorem install_requires_exact (w : World) :
  passed w "install_requires"
  = Some (VList [VStr "boto3"; VStr "functools32"; VStr "thrift";
                 VStr "boto>=2.36.0"])
  /\ install_requires w = ["boto3"; "functools32"; "thrift"; "boto>=2.36.0"].
Proof. split; reflexivity. Qed.

(** C4: the [name] argument passed to [setup] is 'parquet2hive' and the
    [version] argument is '0.2.16'. *)
Theorem name_and_version (w : World) :
  passed w "name" = Some (VStr "parquet2hive")
  /\ passed w "version" = Some (VStr "0.2.16").
Proof. split; reflexivity. Qed.

(** C5: the [tests_require] argument passed to [setup] equals
    ['pytest', 'moto', 'wheel[signatures]', 'jsonschema']. *)
Theorem tests_require_exact (w : World) :
  passed w "tests_require"
  = Some (VList [VStr "pytest"; VStr "moto"; VStr "wheel[signatures]";
                 VStr "jsonschema"])
  /\ passed_strs w "tests_require"
     = Some ["pytest"; "moto"; "wheel[signatures]"; "jsonschema"].
Proof. split; reflexivity. Qed.

(** C6: the [setup_requires] argument passed to [setup] equals the
    one-element list ['pytest-runner']: [pytest-runner] is the only setup
    hook declared. *)
Theorem setup_requires_exact (w : World) :
  passed w "setup_requires" = Some (VList [VStr "pytest-runner"])
  /\ passed_strs w "setup_requires" = Some ["pytest-runner"].
Proof. split; reflexivity. Qed.

(** C7: the declared version constraints are satisfiable.  Every string of
    [install_requires] reads as a requirement; exactly one of them,
    'boto>=2.36.0', carries a version constraint, the lower bound
    [>= 2.36.0] on [boto]; no package name is written twice; every version
    that is at least 2.36.0 meets that bound (and so every requirement of
    the list), such a version exists, and the requirements can all be met
    together. *)
Theorem install_requires_satisfiable (w : World) :
  exists reqs : list Requirement.t,
    Requirement.parse_all (install_requires w) = Some reqs
    /\ filter Requirement.constrained (install_requires w) = ["boto>=2.36.0"]
    /\ filter (fun r => negb (Nat.eqb (List.length (Requirement.req_specs r)) 0))
              reqs
       = [Requirement.mk "boto" [] [(Requirement.Ge, [2; 36; 0])]]
    /\ NoDup (map Requirement.req_name reqs)
    /\ (forall v : Requirement.version,
           Requirement.vcompare v [2; 36; 0] <> Datatypes.Lt ->
           Requirement.satisfies v (Requirement.Ge, [2; 36; 0]) = true
           /\ Forall (fun r => Requirement.satisfies_all v r = true) reqs)
    /\ (exists v : Requirement.version,
           Requirement.vcompare v [2; 36; 0] <> Datatypes.Lt)
    /\ Requirement.satisfiable reqs.
Proof.
  exists [ Requirement.mk "boto3" [] [];
           Requirement.mk "functools32" [] [];
           Requirement.mk "thrift" [] [];
           Requirement.mk "boto" [] [(Requirement.Ge, [2; 36; 0])] ].
  split; [reflexivity |].
  split; [reflexivity |]. split; [reflexivity |].
  split; [simpl; distinct_strings |].
  split; [| split].
  - intros v Hv.
    assert (Hge : Requirement.satisfies v (Requirement.Ge, [2; 36; 0]) = true).
    { unfold Requirement.satisfies; simpl fst; simpl snd.
      destruct (Requirement.vcompare v [2; 36; 0]);
        [reflexivity | contradiction | reflexivity]. }
    split; [exact Hge |].
    repeat (apply Forall_cons || apply Forall_nil);
      unfold Requirement.satisfies_all;
      cbn [Requirement.req_specs forallb]; try reflexivity.
    rewrite Hge. reflexivity.
  - exists [2; 36; 0]. rewrite RequirementFacts.vcompare_refl. discriminate.
  - apply RequirementFacts.lower_bounds_satisfiable.
    repeat constructor.
Qed.

(** C7 at a concrete version: 2.40.1 is at least 2.36.0, so it meets the
    bound the manifest writes for [boto]. *)
Lemma install_requires_satisfiable_at_2_40_1 :
  Requirement.vcompare [2; 40; 1] [2; 36; 0] <> Datatypes.Lt
  /\ Requirement.satisfies [2; 40; 1] (Requirement.Ge, [2; 36; 0]) = true.
Proof.
  split; [discriminate |].
  destruct (install_requires_satisfiable empty_world)
    as [reqs (_ & _ & _ & _ & Hall & _)].
  apply Hall. discriminate.
Defined.

(** C9: evaluating the manifest is deterministic.  The module reads no
    environment variable and no file, it calls [setup] exactly once, every
    argument of the call is a string or a list of strings, and any two
    evaluations pass the same keyword arguments to [setup]. *)
Theorem setup_py_deterministic (w1 w2 : World) :
  reads_nothing setup_py
  /\ run w1 setup_py = run w2 setup_py
  /\ setup_calls w1 setup_py = [setup_kwargs]
  /\ setup_calls w2 setup_py = setup_calls w1 setup_py
  /\ Forall (fun kv => is_literal_arg (snd kv) = true) setup_kwargs.
Proof.
  split; [exact setup_py_reads_nothing |].
  split; [apply run_world_irrelevant; exact setup_py_reads_nothing |].
  split; [apply setup_py_calls |].
  split; [apply setup_calls_world_irrelevant; exact setup_py_reads_nothing |].
  repeat constructor.
Qed.

(** C10: every metadata field passed to [setup] is non-empty.  Each of
    [name], [version], [author], [author_email], [description] and [url]
    is a non-empty string; each of [scripts], [packages],
    [install_requires], [setup_requires] and [tests_require] is a
    non-empty list of non-empty strings; and these eleven are all the
    keywords of the call. *)
Theorem metadata_fields_nonempty (w : World) :
  Forall (fun k => exists s, passed_str w k = Some s /\ s <> "") string_fields
  /\ Forall (fun k => exists l, passed_strs w k = Some l /\ l <> []
                                /\ Forall (fun s => s <> "") l)
            list_fields
  /\ map keywords (setup_calls w setup_py) = [string_fields ++ list_fields].
Proof.
  split; [| split].
  - repeat constructor;
      (eexists; split; [reflexivity | discriminate]).
  - repeat (apply Forall_cons || apply Forall_nil);
      (eexists; split; [reflexivity | split; [discriminate |]]);
      repeat (apply Forall_cons || apply Forall_nil); discriminate.
  - reflexivity.
Qed.

(** ** Beyond the declarations: the call as a whole *)

(** A keyword is found by [kwarg] exactly when it is written in the call. *)
Lemma kwarg_Some_iff (k : string) (kw : kwargs) :
  (exists v, kwarg k kw = Some v) <-> In k (keywords kw).
Proof.
  induction kw as [| [k' v'] rest IH]; simpl.
  - split; [intros [v H]; discriminate | contradiction].
  - destruct (String.eqb k k') eqn:E.
    + apply String.eqb_eq in E. subst k'. split.
      * intros _. left. reflexivity.
      * intros _. exists v'. reflexivity.
    + apply String.eqb_neq in E. rewrite IH. split.
      * intros H. right. exact H.
      * intros [H | H]; [congruence | exact H].
Qed.

(** X1: the call passes the eleven keywords it writes and no other: a
    keyword has a value in the call exactly when it is one of [name],
    [version], [author], [author_email], [description], [url], [scripts],
    [packages], [install_requires], [setup_requires], [tests_require].
    So the manifest gives no [entry_points], [py_modules], [license] or
    [long_description]. *)
Theorem passed_iff_written (w : World) (k : string) :
  (exists v, passed w k = Some v) <-> In k (string_fields ++ list_fields).
Proof.
  rewrite passed_kwarg, kwarg_Some_iff, keywords_are_fields. reflexivity.
Qed.

(** X2: the names in the manifest agree with each other.  With [n] the
    distribution's [name]: the only script is [n], the only package is [n]
    followed by [_modules], and the [url] is the GitHub address that ends
    in [n]. *)
Theorem names_agree (w : World) :
  exists n : string,
    passed_str w "name" = Some n
    /\ passed_strs w "scripts" = Some [n]
    /\ passed_strs w "packages" = Some [String.append n "_modules"]
    /\ passed_str w "url" = Some (String.append "https://github.com/mozilla/" n).
Proof.
  exists "parquet2hive". repeat split; reflexivity.
Qed.

(** X3: the three requirement lists fit together.  Every string of
    [install_requires], [setup_requires] and [tests_require] reads as a
    requirement; over the three lists no package name is written twice;
    the only version constraint is the one of 'boto>=2.36.0' and the only
    extra is [signatures], asked of [wheel]; and all nine requirements can
    be met together. *)
Theorem declared_requirements_fit (w : World) :
  exists reqs : list Requirement.t,
    Requirement.parse_all (declared_requirements w) = Some reqs
    /\ List.length reqs = 9
    /\ NoDup (map Requirement.req_name reqs)
    /\ filter Requirement.constrained (declared_requirements w)
       = ["boto>=2.36.0"]
    /\ filter (fun r => negb (Nat.eqb (List.length (Requirement.req_extras r)) 0))
              reqs
       = [Requirement.mk "wheel" ["signatures"] []]
    /\ Requirement.satisfiable reqs.
Proof.
  exists [ Requirement.mk "boto3" [] [];
           Requirement.mk "functools32" [] [];
           Requirement.mk "thrift" [] [];
           Requirement.mk "boto" [] [(Requirement.Ge, [2; 36; 0])];
           Requirement.mk "pytest-runner" [] [];
           Requirement.mk "pytest" [] [];
           Requirement.mk "moto" [] [];
           Requirement.mk "wheel" ["signatures"] [];
           Requirement.mk "jsonschema" [] [] ].
  split; [reflexivity |]. split; [reflexivity |].
  split; [simpl; distinct_strings |].
  split; [reflexivity |]. split; [reflexivity |].
  apply RequirementFacts.lower_bounds_satisfiable.
  repeat constructor.
Qed.
